(** * USDR support for OpenWebRX+: the device adapter [usdr.py]

    A shallow embedding of [sdr-integration/usdr-openwebrx/usdr.py] and the
    properties of its two classes, [UsdrSource] and [UsdrDeviceDescription].

    Both classes extend classes of the host application
    ([SoapyConnectorSource], [SoapyConnectorDeviceDescription]).  The host is
    not part of the adapter: what the inherited methods answer is kept in
    two records, and every statement below is quantified over them.

    Methods are written in a small state monad over these records.  All but
    one of them only read.  [getSoapySettingsMappings] calls [dict.update] on
    the dictionary object it gets from [super()], so a dictionary reference
    and the place it points to are modelled too. *)

From Stdlib Require Import ZArith String List.
From stdpp Require Import gmap strings list fin_maps.

Local Open Scope string_scope.
Local Open Scope Z_scope.
Local Open Scope list_scope.

(** ** The host's form library, as far as the adapter builds its values *)

(** [owrx.form.input.validator.Range]: two integer bounds. *)
Record Range : Type := { range_start : Z; range_end : Z }.

(** Modelled from the spec: the host's [Range] is a closed interval, both
    bounds included; its membership test is not part of the adapter. *)
Definition Range_isIn (r : Range) (n : Z) : Prop :=
  range_start r <= n <= range_end r.

(** Boolean version of the membership test. *)
Definition Range_isInb (r : Range) (n : Z) : bool :=
  (range_start r <=? n) && (n <=? range_end r).

(** [owrx.form.input.validator.RangeValidator], the one validator that
    [usdr.py] imports. *)
Inductive Validator : Type :=
| RangeValidator (minValue maxValue : Z).

(** [RangeValidator(minValue, maxValue)] keeps [Range(minValue, maxValue)]. *)
Definition Validator_range (v : Validator) : Range :=
  match v with
  | RangeValidator lo hi => {| range_start := lo; range_end := hi |}
  end.

(** The input classes that [usdr.py] imports.  [NumberInput] is the only one
    it constructs; its keyword arguments [infotext], [append] and
    [validator] default to [None], the empty string and [None]. *)
Inductive Input : Type :=
| TextInput (id label : string) (infotext : option string)
| NumberInput (id label : string) (infotext : option string)
    (append : string) (validator : option Validator)
| CheckboxInput (id label : string) (infotext : option string)
| GainInput (id label : string) (gain_stages : option (list string))
    (has_agc : bool).

Definition Input_id (i : Input) : string :=
  match i with
  | TextInput id _ _ | NumberInput id _ _ _ _
  | CheckboxInput id _ _ | GainInput id _ _ _ => id
  end.

(** The unit suffix shown after the field; only number fields have one. *)
Definition Input_append (i : Input) : option string :=
  match i with
  | NumberInput _ _ _ a _ => Some a
  | _ => None
  end.

Definition Input_validator (i : Input) : option Validator :=
  match i with
  | NumberInput _ _ _ _ v => v
  | _ => None
  end.

(** The numeric range a field is restricted to, if any. *)
Definition Input_range (i : Input) : option Range :=
  Validator_range <$> Input_validator i.

(** The numbers a field lets through: all of them without a validator. *)
Definition Input_accepts (i : Input) (n : Z) : Prop :=
  match Input_range i with
  | Some r => Range_isIn r n
  | None => True
  end.

Definition is_NumberInput (i : Input) : bool :=
  match i with
  | NumberInput _ _ _ _ _ => true
  | _ => false
  end.

(** ** A state monad for method bodies *)

Definition M (S A : Type) : Type := S -> A * S.

Definition ret {S A} (a : A) : M S A := fun s => (a, s).

Definition bind {S A B} (m : M S A) (k : A -> M S B) : M S B :=
  fun s => let (a, s') := m s in k a s'.

Definition gets {S A} (f : S -> A) : M S A := fun s => (f s, s).

Definition modify {S} (f : S -> S) : M S unit := fun s => (tt, f s).

Notation "'let*' x ':=' m 'in' k" := (bind m (fun x => k))
  (at level 10, x name, m at level 100, k at level 200).

(** What a call answers, and the state it leaves. *)
Definition answer {S A} (m : M S A) (s : S) : A := fst (m s).
Definition after {S A} (m : M S A) (s : S) : S := snd (m s).

(** ** Python dictionaries with string keys and values *)

(** [d.update(other)] for a dictionary literal [other]: its items are
    stored one after the other, a later one replacing an earlier one. *)
Definition dict_update (d : gmap string string)
    (other : list (string * string)) : gmap string string :=
  foldl (fun m kv => <[kv.1 := kv.2]> m) d other.

(** ** The inherited classes *)

Module SoapyConnectorSource.

(** What the host's source class keeps for [getSoapySettingsMappings]:
    the contents of the dictionary it answers with, and whether every
    call hands out that very dictionary object ([true]) or builds a new
    one with these contents ([false]). *)
Record t : Type := {
  mappings : gmap string string;
  mappings_kept : bool
}.

(** A reference to a dictionary: one that only the caller holds, or the
    one the host keeps. *)
Inductive dict_ref : Type :=
| Owned (d : gmap string string)
| Kept.

Definition set_mappings (d : gmap string string) (s : t) : t :=
  {| mappings := d; mappings_kept := mappings_kept s |}.

(** [super().getSoapySettingsMappings()] *)
Definition getSoapySettingsMappings : M t dict_ref :=
  fun s => if mappings_kept s then (Kept, s) else (Owned (mappings s), s).

(** [r.update(other)]: changes the object [r] points to. *)
Definition update (r : dict_ref) (other : list (string * string))
  : M t dict_ref :=
  match r with
  | Owned d => ret (Owned (dict_update d other))
  | Kept =>
      let* _ :=
        modify (fun s => set_mappings (dict_update (mappings s) other) s) in
      ret Kept
  end.

(** The contents of the object [r] points to. *)
Definition contents (r : dict_ref) : M t (gmap string string) :=
  match r with
  | Owned d => ret d
  | Kept => gets mappings
  end.

End SoapyConnectorSource.

Module SoapyConnectorDeviceDescription.

(** What the host's description class answers by default. *)
Record t : Type := {
  inputs : list Input;
  device_optional_keys : list string;
  profile_optional_keys : list string;
  sample_rate_ranges : list Range;
  gain_stages : option (list string);
  has_agc : bool
}.

(** [super().getInputs()] and the like: they read, and change nothing. *)
Definition getInputs : M t (list Input) := gets inputs.
Definition getDeviceOptionalKeys : M t (list string) :=
  gets device_optional_keys.
Definition getProfileOptionalKeys : M t (list string) :=
  gets profile_optional_keys.

End SoapyConnectorDeviceDescription.

(** ** [class UsdrSource(SoapyConnectorSource)] *)

Module UsdrSource.

Import SoapyConnectorSource.

Definition getDriver : M SoapyConnectorSource.t string :=
  ret "usdr".

(** The dictionary literal passed to [update]. *)
Definition usdr_settings : list (string * string) :=
  [ ("loglevel", "loglevel");
    ("rx_bw", "rx_bw");
    ("tx_bw", "tx_bw") ].

(** The method returns the reference [mappings]; what the caller reads
    through it is the dictionary's contents at that moment. *)
Definition getSoapySettingsMappings
  : M SoapyConnectorSource.t (gmap string string) :=
  let* mappings := SoapyConnectorSource.getSoapySettingsMappings in
  let* mappings := update mappings usdr_settings in
  contents mappings.

End UsdrSource.

(** ** [class UsdrDeviceDescription(SoapyConnectorDeviceDescription)] *)

Module UsdrDeviceDescription.

Definition getName : M SoapyConnectorDeviceDescription.t string :=
  ret "USDR (Wavelet Lab Micro SDR)".

(** The list literal appended to the inherited fields. *)
Definition usdr_inputs : list Input :=
  [ NumberInput "loglevel" "Log level"
      (Some "Set the logging verbosity level (0-5, default: 3)")
      "" (Some (RangeValidator 0 5));
    NumberInput "rx_bw" "RX Bandwidth"
      (Some "Set the receive bandwidth filter")
      "Hz" None;
    NumberInput "tx_bw" "TX Bandwidth"
      (Some "Set the transmit bandwidth filter")
      "Hz" None ].

Definition getInputs : M SoapyConnectorDeviceDescription.t (list Input) :=
  let* base := SoapyConnectorDeviceDescription.getInputs in
  ret (base ++ usdr_inputs).

Definition getDeviceOptionalKeys
  : M SoapyConnectorDeviceDescription.t (list string) :=
  let* base := SoapyConnectorDeviceDescription.getDeviceOptionalKeys in
  ret (base ++ ["loglevel"; "rx_bw"; "tx_bw"]).

Definition getProfileOptionalKeys
  : M SoapyConnectorDeviceDescription.t (list string) :=
  let* base := SoapyConnectorDeviceDescription.getProfileOptionalKeys in
  ret (base ++ ["rx_bw"; "tx_bw"]).

Definition getSampleRateRanges
  : M SoapyConnectorDeviceDescription.t (list Range) :=
  ret [ {| range_start := 100000; range_end := 65000000 |} ].

Definition getGainStages
  : M SoapyConnectorDeviceDescription.t (list string) :=
  ret ["LNA"; "VGA1"; "VGA2"].

Definition hasAgc : M SoapyConnectorDeviceDescription.t bool :=
  ret false.

End UsdrDeviceDescription.

(** ** Both objects together, and their queries *)

Record World : Type := {
  source : SoapyConnectorSource.t;
  description : SoapyConnectorDeviceDescription.t
}.

(** A method of the source object, run in the world. *)
Definition on_source {A} (m : M SoapyConnectorSource.t A) : M World A :=
  fun w =>
    let (a, s) := m (source w) in
    (a, {| source := s; description := description w |}).

(** A method of the description object, run in the world. *)
Definition on_description {A} (m : M SoapyConnectorDeviceDescription.t A)
  : M World A :=
  fun w =>
    let (a, d) := m (description w) in
    (a, {| source := source w; description := d |}).

(** The nine methods of the two classes. *)
Inductive Query : Type :=
| Q_getDriver
| Q_getSoapySettingsMappings
| Q_getName
| Q_getInputs
| Q_getDeviceOptionalKeys
| Q_getProfileOptionalKeys
| Q_getSampleRateRanges
| Q_getGainStages
| Q_hasAgc.

(** What a method returns. *)
Inductive Answer : Type :=
| A_str (s : string)
| A_dict (d : gmap string string)
| A_inputs (l : list Input)
| A_keys (l : list string)
| A_ranges (l : list Range)
| A_bool (b : bool).

Definition fmap_M {S A B} (f : A -> B) (m : M S A) : M S B :=
  let* a := m in ret (f a).

Definition ask (q : Query) : M World Answer :=
  match q with
  | Q_getDriver => on_source (fmap_M A_str UsdrSource.getDriver)
  | Q_getSoapySettingsMappings =>
      on_source (fmap_M A_dict UsdrSource.getSoapySettingsMappings)
  | Q_getName => on_description (fmap_M A_str UsdrDeviceDescription.getName)
  | Q_getInputs =>
      on_description (fmap_M A_inputs UsdrDeviceDescription.getInputs)
  | Q_getDeviceOptionalKeys =>
      on_description
        (fmap_M A_keys UsdrDeviceDescription.getDeviceOptionalKeys)
  | Q_getProfileOptionalKeys =>
      on_description
        (fmap_M A_keys UsdrDeviceDescription.getProfileOptionalKeys)
  | Q_getSampleRateRanges =>
      on_description
        (fmap_M A_ranges UsdrDeviceDescription.getSampleRateRanges)
  | Q_getGainStages =>
      on_description (fmap_M A_keys UsdrDeviceDescription.getGainStages)
  | Q_hasAgc => on_description (fmap_M A_bool UsdrDeviceDescription.hasAgc)
  end.

(** The world after a sequence of calls, first call first. *)
Definition exec (qs : list Query) (w : World) : World :=
  foldl (fun w q => after (ask q) w) w qs.

(** The answers to a sequence of calls, each made in the world the calls
    before it have left. *)
Fixpoint transcript (qs : list Query) (w : World) : list Answer :=
  match qs with
  | [] => []
  | q :: qs' => answer (ask q) w :: transcript qs' (after (ask q) w)
  end.

(** The three keys the adapter adds. *)
Definition usdr_key (k : string) : Prop :=
  k = "loglevel" \/ k = "rx_bw" \/ k = "tx_bw".

(** ** A host to try the adapter on *)

(** Defaults in the manner of the host's SoapySDR classes: three fields, no
    settings forwarded, no gain stages, automatic gain control. *)
Definition soapy_description : SoapyConnectorDeviceDescription.t :=
  {| SoapyConnectorDeviceDescription.inputs :=
       [ TextInput "device" "Device identifier" None;
         GainInput "rf_gain" "Device gain" None true;
         TextInput "antenna" "Antenna" None ];
     SoapyConnectorDeviceDescription.device_optional_keys :=
       ["device"; "rf_gain"; "antenna"];
     SoapyConnectorDeviceDescription.profile_optional_keys := ["antenna"];
     SoapyConnectorDeviceDescription.sample_rate_ranges := [];
     SoapyConnectorDeviceDescription.gain_stages := None;
     SoapyConnectorDeviceDescription.has_agc := true |}.

(** A source whose inherited mapping is a new empty dictionary per call. *)
Definition soapy_source : SoapyConnectorSource.t :=
  {| SoapyConnectorSource.mappings := ∅;
     SoapyConnectorSource.mappings_kept := false |}.

(** A source that keeps one dictionary, with one entry, and hands it out. *)
Definition keeping_source : SoapyConnectorSource.t :=
  {| SoapyConnectorSource.mappings := {[ "antenna" := "antenna" ]};
     SoapyConnectorSource.mappings_kept := true |}.

Definition soapy_world : World :=
  {| source := soapy_source; description := soapy_description |}.

Definition keeping_world : World :=
  {| source := keeping_source; description := soapy_description |}.

(** ** Well-formed settings mappings *)

(** No two settings are forwarded to the driver under the same name. *)
Definition dict_injective (m : gmap string string) : Prop :=
  forall k1 k2 v, m !! k1 = Some v -> m !! k2 = Some v -> k1 = k2.

(** ** The settings dictionary after [update] *)

Import SoapyConnectorSource SoapyConnectorDeviceDescription.

Lemma dict_update_usdr_settings (d : gmap string string) :
  dict_update d UsdrSource.usdr_settings =
  <["tx_bw" := "tx_bw"]> (<["rx_bw" := "rx_bw"]>
    (<["loglevel" := "loglevel"]> d)).
Proof. reflexivity. Qed.

Lemma lookup_usdr_key (d : gmap string string) (k : string) :
  usdr_key k -> dict_update d UsdrSource.usdr_settings !! k = Some k.
Proof.
  rewrite dict_update_usdr_settings.
  intros [-> | [-> | ->]]; by simplify_map_eq.
Qed.

Lemma lookup_not_usdr_key (d : gmap string string) (k : string) :
  ~ usdr_key k -> dict_update d UsdrSource.usdr_settings !! k = d !! k.
Proof.
  rewrite dict_update_usdr_settings. unfold usdr_key. intros Hk.
  rewrite !lookup_insert_ne; [done | | |]; intros <-; tauto.
Qed.

Lemma usdr_key_dec (k : string) : {usdr_key k} + {~ usdr_key k}.
Proof.
  unfold usdr_key.
  destruct (decide (k = "loglevel")); [by left; left |].
  destruct (decide (k = "rx_bw")); [by left; right; left |].
  destruct (decide (k = "tx_bw")); [by left; right; right |].
  right. tauto.
Qed.

(** Updating twice is updating once. *)
Lemma dict_update_usdr_settings_idemp (d : gmap string string) :
  dict_update (dict_update d UsdrSource.usdr_settings)
    UsdrSource.usdr_settings
  = dict_update d UsdrSource.usdr_settings.
Proof.
  apply map_eq. intros k. destruct (usdr_key_dec k) as [Hk | Hk].
  - by rewrite !lookup_usdr_key.
  - by rewrite lookup_not_usdr_key.
Qed.

(** What [getSoapySettingsMappings] answers and leaves, in both ways the
    host may hand out its dictionary. *)
Lemma getSoapySettingsMappings_answer (s : SoapyConnectorSource.t) :
  answer UsdrSource.getSoapySettingsMappings s
  = dict_update (mappings s) UsdrSource.usdr_settings.
Proof.
  unfold answer, UsdrSource.getSoapySettingsMappings, bind,
    SoapyConnectorSource.getSoapySettingsMappings.
  by destruct (mappings_kept s).
Qed.

Lemma getSoapySettingsMappings_after (s : SoapyConnectorSource.t) :
  after UsdrSource.getSoapySettingsMappings s
  = if mappings_kept s
    then set_mappings (dict_update (mappings s) UsdrSource.usdr_settings) s
    else s.
Proof.
  unfold after, UsdrSource.getSoapySettingsMappings, bind,
    SoapyConnectorSource.getSoapySettingsMappings.
  by destruct (mappings_kept s).
Qed.

(** ** Calls that only read *)

Lemma on_description_reads {A} (f : SoapyConnectorDeviceDescription.t -> A)
    (g : A -> Answer) (w : World) :
  on_description (fmap_M g (gets f)) w = (g (f (description w)), w).
Proof. by destruct w. Qed.

Lemma ask_getDriver (w : World) : ask Q_getDriver w = (A_str "usdr", w).
Proof. by destruct w. Qed.

Lemma ask_hasAgc (w : World) : ask Q_hasAgc w = (A_bool false, w).
Proof. by destruct w. Qed.

Lemma ask_getGainStages (w : World) :
  ask Q_getGainStages w = (A_keys ["LNA"; "VGA1"; "VGA2"], w).
Proof. by destruct w. Qed.

(** ** One call after another *)

(** No answer is changed by a call made before it. *)
Lemma answer_after_ask (q0 q : Query) (w : World) :
  answer (ask q) (after (ask q0) w) = answer (ask q) w.
Proof.
  destruct w as [[m kept] d].
  destruct q0; try (by destruct q).
  destruct kept; [| by destruct q].
  destruct q; try reflexivity.
  unfold answer, after. cbn. f_equal.
  apply dict_update_usdr_settings_idemp.
Qed.

Lemma exec_cons (q : Query) (qs : list Query) (w : World) :
  exec (q :: qs) w = exec qs (after (ask q) w).
Proof. reflexivity. Qed.

(** Nor by any number of calls made before it. *)
Lemma answer_after_exec (qs : list Query) (q : Query) (w : World) :
  answer (ask q) (exec qs w) = answer (ask q) w.
Proof.
  revert w. induction qs as [| q0 qs IH]; intros w; [done |].
  by rewrite exec_cons, IH, answer_after_ask.
Qed.

Lemma transcript_alone (qs : list Query) (w : World) :
  transcript qs w = map (fun q => answer (ask q) w) qs.
Proof.
  revert w. induction qs as [| q0 qs IH]; intros w; [done |].
  cbn [transcript map]. f_equal. rewrite IH.
  apply map_ext. intros q. apply answer_after_ask.
Qed.

(** ** The queries of [UsdrSource] *)

(** C1: [getDriver] returns exactly the string "usdr" and leaves the object
    as it was, in every state of the source; asked in a world that any
    sequence of earlier queries has gone through, the answer is the same
    string. *)
Theorem getDriver_usdr :
  (forall s : SoapyConnectorSource.t, UsdrSource.getDriver s = ("usdr", s))
  /\ (forall (w : World) (prior : list Query),
        answer (ask Q_getDriver) (exec prior w) = A_str "usdr").
Proof.
  split; [done |].
  intros w prior. unfold answer. by rewrite ask_getDriver.
Qed.

(** C3: for every inherited mapping, the mapping [getSoapySettingsMappings]
    returns is the inherited one with the entries of the three keys
    loglevel, rx_bw and tx_bw laid over it: exactly three entries, each
    sending its key to the same name; every other key keeps what the
    inherited mapping has for it; the keys are the inherited keys and these
    three.  When none of the three is an inherited key, the result holds
    every inherited entry and exactly three entries more. *)
Theorem getSoapySettingsMappings_extends_base (s : SoapyConnectorSource.t) :
  let base := mappings s in
  let added : gmap string string :=
    {[ "loglevel" := "loglevel"; "rx_bw" := "rx_bw"; "tx_bw" := "tx_bw" ]} in
  let r := answer UsdrSource.getSoapySettingsMappings s in
  r = added ∪ base
  /\ size added = 3%nat
  /\ (forall k, usdr_key k <-> is_Some (added !! k))
  /\ (forall k, usdr_key k -> r !! k = Some k)
  /\ (forall k, ~ usdr_key k -> r !! k = base !! k)
  /\ dom r = dom base ∪ {[ "loglevel"; "rx_bw"; "tx_bw" ]}
  /\ ((forall k, usdr_key k -> base !! k = None) ->
      base ⊆ r /\ size r = (size base + 3)%nat).
Proof.
  intros base added r.
  assert (Hadded : forall k, added !! k = if usdr_key_dec k then Some k else None).
  { intros k. subst added. destruct (usdr_key_dec k) as [Hk | Hk].
    - destruct Hk as [-> | [-> | ->]]; by simplify_map_eq.
    - unfold usdr_key in Hk.
      rewrite !lookup_insert_ne, lookup_singleton_ne; try done;
        intros <-; tauto. }
  assert (Hr : forall k, r !! k = if usdr_key_dec k then Some k else base !! k).
  { intros k. subst r. rewrite getSoapySettingsMappings_answer.
    destruct (usdr_key_dec k) as [Hk | Hk].
    - by apply lookup_usdr_key.
    - by apply lookup_not_usdr_key. }
  assert (Hunion : r = added ∪ base).
  { apply map_eq. intros k. rewrite Hr, lookup_union, Hadded.
    destruct (usdr_key_dec k); [| by rewrite (left_id None _)].
    by destruct (base !! k). }
  split; [exact Hunion |].
  split; [vm_compute; reflexivity |].
  split.
  { intros k. rewrite Hadded. destruct (usdr_key_dec k) as [Hk | Hk].
    - split; [intros _; by exists k | intros _; exact Hk].
    - split; [intros Hk'; contradiction | intros [x Hx]; discriminate]. }
  split.
  { intros k Hk. rewrite Hr.
    destruct (usdr_key_dec k); [reflexivity | contradiction]. }
  split.
  { intros k Hk. rewrite Hr.
    destruct (usdr_key_dec k); [contradiction | reflexivity]. }
  split.
  { apply set_eq. intros k.
    rewrite elem_of_union, !elem_of_dom, Hr, !elem_of_union, !elem_of_singleton.
    destruct (usdr_key_dec k) as [Hk | Hk]; unfold usdr_key in Hk.
    - split; [tauto | eauto].
    - tauto. }
  intros Hfresh.
  assert (Hdisj : added ##ₘ base).
  { apply map_disjoint_spec. intros k x y Hx Hy.
    rewrite Hadded in Hx.
    destruct (usdr_key_dec k) as [Hk | Hk]; [| discriminate].
    rewrite (Hfresh k Hk) in Hy. discriminate. }
  split.
  - rewrite Hunion. apply map_union_subseteq_r. exact Hdisj.
  - rewrite Hunion, (map_size_disj_union _ _ Hdisj).
    replace (size added) with 3%nat by (vm_compute; reflexivity). lia.
Qed.

(** A concrete host for C3: nothing is forwarded by default, so none of the
    three keys is inherited, and the result has the three entries only. *)
Lemma getSoapySettingsMappings_extends_base_soapy :
  (forall k, usdr_key k -> mappings soapy_source !! k = None)
  /\ mappings soapy_source
     ⊆ answer UsdrSource.getSoapySettingsMappings soapy_source
  /\ size (answer UsdrSource.getSoapySettingsMappings soapy_source)
     = (size (mappings soapy_source) + 3)%nat.
Proof.
  assert (Hfresh : forall k, usdr_key k -> mappings soapy_source !! k = None)
    by (intros k _; apply lookup_empty).
  split; [exact Hfresh |].
  apply (getSoapySettingsMappings_extends_base soapy_source), Hfresh.
Defined.

(** ** The queries of [UsdrDeviceDescription] *)

Lemma getInputs_answer (d : SoapyConnectorDeviceDescription.t) :
  answer UsdrDeviceDescription.getInputs d
  = inputs d ++ UsdrDeviceDescription.usdr_inputs.
Proof. reflexivity. Qed.

Lemma getDeviceOptionalKeys_answer (d : SoapyConnectorDeviceDescription.t) :
  answer UsdrDeviceDescription.getDeviceOptionalKeys d
  = device_optional_keys d ++ ["loglevel"; "rx_bw"; "tx_bw"].
Proof. reflexivity. Qed.

Lemma getProfileOptionalKeys_answer (d : SoapyConnectorDeviceDescription.t) :
  answer UsdrDeviceDescription.getProfileOptionalKeys d
  = profile_optional_keys d ++ ["rx_bw"; "tx_bw"].
Proof. reflexivity. Qed.

(** C2: the list [getInputs] returns is the inherited fields followed by
    exactly three fields with the keys loglevel, rx_bw, tx_bw in this order;
    all three are number fields; the loglevel field is restricted to the
    range from 0 to 5, both bounds included; the rx_bw and tx_bw fields have the unit suffix "Hz" and no
    validator, so every number passes. *)
Theorem getInputs_base_then_three (d : SoapyConnectorDeviceDescription.t) :
  exists f_loglevel f_rx_bw f_tx_bw : Input,
    answer UsdrDeviceDescription.getInputs d
      = inputs d ++ [f_loglevel; f_rx_bw; f_tx_bw]
    /\ map Input_id [f_loglevel; f_rx_bw; f_tx_bw]
       = ["loglevel"; "rx_bw"; "tx_bw"]
    /\ forallb is_NumberInput [f_loglevel; f_rx_bw; f_tx_bw] = true
    /\ Input_validator f_loglevel = Some (RangeValidator 0 5)
    /\ Input_range f_loglevel = Some {| range_start := 0; range_end := 5 |}
    /\ (forall n : Z, Input_accepts f_loglevel n <-> 0 <= n <= 5)
    /\ Input_append f_rx_bw = Some "Hz"
    /\ Input_append f_tx_bw = Some "Hz"
    /\ Input_validator f_rx_bw = None
    /\ Input_validator f_tx_bw = None
    /\ (forall n : Z, Input_accepts f_rx_bw n /\ Input_accepts f_tx_bw n).
Proof.
  rewrite getInputs_answer.
  eexists _, _, _. split; [reflexivity |].
  repeat split; cbn in *; unfold Range_isIn in *; cbn in *; lia.
Qed.

(** C4: the list [getDeviceOptionalKeys] returns holds every inherited key
    (it starts with the inherited list), and besides them exactly the keys
    loglevel, rx_bw and tx_bw, each added once: such a key occurs once more
    than in the inherited list, hence exactly once when it is not
    inherited. *)
Theorem getDeviceOptionalKeys_base_and_three
    (d : SoapyConnectorDeviceDescription.t) :
  let base := device_optional_keys d in
  let keys := answer UsdrDeviceDescription.getDeviceOptionalKeys d in
  (forall k, k ∈ base -> k ∈ keys)
  /\ take (length base) keys = base
  /\ (forall k, k ∈ keys <-> k ∈ base \/ usdr_key k)
  /\ (forall k, usdr_key k ->
        count_occ string_dec keys k = S (count_occ string_dec base k))
  /\ (forall k, ~ usdr_key k ->
        count_occ string_dec keys k = count_occ string_dec base k)
  /\ (forall k, usdr_key k -> k ∉ base ->
        count_occ string_dec keys k = 1%nat).
Proof.
  intros base keys. subst keys. rewrite getDeviceOptionalKeys_answer.
  fold base.
  assert (Hcount : forall k, usdr_key k ->
    count_occ string_dec (base ++ ["loglevel"; "rx_bw"; "tx_bw"]) k
    = S (count_occ string_dec base k)).
  { intros k Hk. rewrite count_occ_app.
    destruct Hk as [-> | [-> | ->]]; cbn; lia. }
  split; [intros k Hk; apply elem_of_app; by left |].
  split; [by rewrite take_app_length |].
  split.
  { intros k. rewrite elem_of_app. unfold usdr_key.
    rewrite !elem_of_cons, elem_of_nil. tauto. }
  split; [exact Hcount |].
  split.
  { intros k Hk. rewrite count_occ_app.
    replace (count_occ string_dec ["loglevel"; "rx_bw"; "tx_bw"] k)
      with 0%nat; [lia |].
    symmetry. apply count_occ_not_In. intros Hin. apply Hk.
    unfold usdr_key. destruct Hin as [<- | [<- | [<- | []]]]; auto. }
  intros k Hk Hbase. rewrite (Hcount k Hk).
  f_equal. apply count_occ_not_In. by rewrite <- list_elem_of_In.
Qed.

(** A concrete host for C4: with the inherited keys device, rf_gain and
    antenna, each of the three added keys occurs exactly once. *)
Lemma getDeviceOptionalKeys_base_and_three_soapy :
  let keys :=
    answer UsdrDeviceDescription.getDeviceOptionalKeys soapy_description in
  count_occ string_dec keys "loglevel" = 1%nat
  /\ count_occ string_dec keys "rx_bw" = 1%nat
  /\ count_occ string_dec keys "tx_bw" = 1%nat.
Proof.
  pose proof
    (getDeviceOptionalKeys_base_and_three soapy_description) as H.
  cbv zeta in H. destruct H as (_ & _ & _ & _ & _ & H).
  repeat split; apply H; unfold usdr_key; try tauto;
    cbn; rewrite !elem_of_cons, elem_of_nil; intros Hin;
    repeat (destruct Hin as [Hin | Hin]; [discriminate |]); exact Hin.
Defined.

(** C5: the list [getProfileOptionalKeys] returns is the inherited list
    followed by rx_bw and tx_bw and nothing else: its keys are exactly the
    inherited ones and these two.  loglevel is not among the added keys, so
    it is in the result only if it is inherited, and absent when the
    inherited list does not have it. *)
Theorem getProfileOptionalKeys_base_and_two
    (d : SoapyConnectorDeviceDescription.t) :
  let base := profile_optional_keys d in
  let keys := answer UsdrDeviceDescription.getProfileOptionalKeys d in
  (forall k, k ∈ keys <-> k ∈ base \/ k = "rx_bw" \/ k = "tx_bw")
  /\ take (length base) keys = base
  /\ drop (length base) keys = ["rx_bw"; "tx_bw"]
  /\ ("loglevel" ∉ drop (length base) keys)
  /\ ("loglevel" ∈ keys <-> "loglevel" ∈ base)
  /\ ("loglevel" ∉ base -> "loglevel" ∉ keys).
Proof.
  intros base keys. subst keys. rewrite getProfileOptionalKeys_answer.
  fold base.
  assert (Hlog : ("loglevel" ∈ base ++ ["rx_bw"; "tx_bw"])
                 <-> ("loglevel" ∈ base)).
  { rewrite elem_of_app, !elem_of_cons, elem_of_nil.
    split; [| tauto].
    intros [H | [H | [H | []]]]; [exact H | discriminate | discriminate]. }
  split.
  { intros k. rewrite elem_of_app, !elem_of_cons, elem_of_nil. tauto. }
  split; [by rewrite take_app_length |].
  split; [by rewrite drop_app_length |].
  split.
  { rewrite drop_app_length, !elem_of_cons, elem_of_nil.
    intros [H | [H | []]]; discriminate. }
  split; [exact Hlog |].
  intros Hbase Hkeys. apply Hbase, Hlog, Hkeys.
Qed.

(** A concrete host for C5: with the inherited profile key antenna, the
    result does not contain loglevel. *)
Lemma getProfileOptionalKeys_base_and_two_soapy :
  ("loglevel" ∉ profile_optional_keys soapy_description)
  /\ ("loglevel"
      ∉ answer UsdrDeviceDescription.getProfileOptionalKeys
          soapy_description).
Proof.
  assert (Hbase : "loglevel" ∉ profile_optional_keys soapy_description).
  { cbn. rewrite elem_of_cons, elem_of_nil. intros [H | []]; discriminate. }
  split; [exact Hbase |].
  apply (getProfileOptionalKeys_base_and_two soapy_description), Hbase.
Defined.

(** C6: [getSampleRateRanges] returns a list of exactly one range, from
    100000 to 65000000 with both bounds included, whatever ranges the
    inherited description has; the description is left as it was. *)
Theorem getSampleRateRanges_one_interval
    (d : SoapyConnectorDeviceDescription.t) :
  let ranges := answer UsdrDeviceDescription.getSampleRateRanges d in
  ranges = [ {| range_start := 100000; range_end := 65000000 |} ]
  /\ length ranges = 1%nat
  /\ (forall n : Z,
        (exists r, r ∈ ranges /\ Range_isIn r n) <-> 100000 <= n <= 65000000)
  /\ (forall n : Z,
        existsb (fun r => Range_isInb r n) ranges = true
        <-> 100000 <= n <= 65000000)
  /\ (forall inherited : list Range,
        answer UsdrDeviceDescription.getSampleRateRanges
          {| inputs := inputs d;
             device_optional_keys := device_optional_keys d;
             profile_optional_keys := profile_optional_keys d;
             sample_rate_ranges := inherited;
             gain_stages := gain_stages d;
             has_agc := has_agc d |} = ranges)
  /\ after UsdrDeviceDescription.getSampleRateRanges d = d.
Proof.
  cbv zeta. change (answer UsdrDeviceDescription.getSampleRateRanges d)
    with [ {| range_start := 100000; range_end := 65000000 |} ].
  split; [reflexivity |]. split; [reflexivity |].
  split.
  { intros n. split.
    - intros (r & Hr & Hn). apply list_elem_of_singleton in Hr. by subst r.
    - intros Hn. eexists. split; [apply list_elem_of_singleton; reflexivity |].
      exact Hn. }
  split.
  { intros n. cbn. unfold Range_isInb. cbn.
    rewrite orb_false_r, andb_true_iff, !Z.leb_le. tauto. }
  split; reflexivity.
Qed.

(** C9: [getGainStages] returns exactly the list LNA, VGA1, VGA2, in this
    order, whatever gain stages the inherited description has (it may have
    none); the description is left as it was. *)
Theorem getGainStages_lna_vga1_vga2 (d : SoapyConnectorDeviceDescription.t) :
  answer UsdrDeviceDescription.getGainStages d = ["LNA"; "VGA1"; "VGA2"]
  /\ (forall inherited : option (list string),
        answer UsdrDeviceDescription.getGainStages
          {| inputs := inputs d;
             device_optional_keys := device_optional_keys d;
             profile_optional_keys := profile_optional_keys d;
             sample_rate_ranges := sample_rate_ranges d;
             gain_stages := inherited;
             has_agc := has_agc d |} = ["LNA"; "VGA1"; "VGA2"])
  /\ after UsdrDeviceDescription.getGainStages d = d
  /\ (forall (w : World) (prior : list Query),
        answer (ask Q_getGainStages) (exec prior w)
        = A_keys ["LNA"; "VGA1"; "VGA2"]).
Proof.
  split; [reflexivity |]. split; [reflexivity |]. split; [reflexivity |].
  intros w prior. unfold answer. by rewrite ask_getGainStages.
Qed.

(** C10: [hasAgc] returns false in every state of the description, also
    when the inherited default is true, and after any sequence of earlier
    queries; the description is left as it was. *)
Theorem hasAgc_false (d : SoapyConnectorDeviceDescription.t) :
  answer UsdrDeviceDescription.hasAgc d = false
  /\ (forall inherited : bool,
        answer UsdrDeviceDescription.hasAgc
          {| inputs := inputs d;
             device_optional_keys := device_optional_keys d;
             profile_optional_keys := profile_optional_keys d;
             sample_rate_ranges := sample_rate_ranges d;
             gain_stages := gain_stages d;
             has_agc := inherited |} = false)
  /\ after UsdrDeviceDescription.hasAgc d = d
  /\ (forall (w : World) (prior : list Query),
        answer (ask Q_hasAgc) (exec prior w) = A_bool false).
Proof.
  split; [reflexivity |]. split; [reflexivity |]. split; [reflexivity |].
  intros w prior. unfold answer. by rewrite ask_hasAgc.
Qed.

(** ** The two classes together *)

(** The source that keeps its dictionary is changed by the first call of
    [getSoapySettingsMappings]: the kept dictionary has the three entries
    from then on. *)
Example keeping_source_is_changed :
  mappings (after UsdrSource.getSoapySettingsMappings keeping_source)
  = {[ "antenna" := "antenna"; "loglevel" := "loglevel";
       "rx_bw" := "rx_bw"; "tx_bw" := "tx_bw" ]}
  /\ mappings keeping_source !! "loglevel" = None.
Proof. split; by vm_compute. Qed.

(** The source that gets a new dictionary per call is not. *)
Example soapy_source_is_unchanged :
  after UsdrSource.getSoapySettingsMappings soapy_source = soapy_source.
Proof. reflexivity. Qed.

Example getInputs_soapy :
  map Input_id (answer UsdrDeviceDescription.getInputs soapy_description)
  = ["device"; "rf_gain"; "antenna"; "loglevel"; "rx_bw"; "tx_bw"].
Proof. reflexivity. Qed.

Example getDeviceOptionalKeys_soapy :
  answer UsdrDeviceDescription.getDeviceOptionalKeys soapy_description
  = ["device"; "rf_gain"; "antenna"; "loglevel"; "rx_bw"; "tx_bw"].
Proof. reflexivity. Qed.

Example getProfileOptionalKeys_soapy :
  answer UsdrDeviceDescription.getProfileOptionalKeys soapy_description
  = ["antenna"; "rx_bw"; "tx_bw"].
Proof. reflexivity. Qed.

(** C7: when every key of the inherited mapping is the key of an inherited
    field, every key of the mapping [getSoapySettingsMappings] returns is
    the key of a field in the list [getInputs] returns; the keys the
    dictionary literal adds are, one by one, the keys of the three added
    fields: loglevel, rx_bw, tx_bw. *)
Theorem mapping_keys_are_field_keys (w : World) :
  ((forall k, k ∈ dom (mappings (source w)) ->
              k ∈ map Input_id (inputs (description w))) ->
   forall k,
     k ∈ dom (answer UsdrSource.getSoapySettingsMappings (source w)) ->
     k ∈ map Input_id
           (answer UsdrDeviceDescription.getInputs (description w)))
  /\ map fst UsdrSource.usdr_settings
     = map Input_id UsdrDeviceDescription.usdr_inputs
  /\ map fst UsdrSource.usdr_settings = ["loglevel"; "rx_bw"; "tx_bw"]
  /\ (forall k, usdr_key k ->
        k ∈ dom (answer UsdrSource.getSoapySettingsMappings (source w))
        /\ k ∈ map Input_id
                 (answer UsdrDeviceDescription.getInputs (description w))).
Proof.
  assert (Hadded : forall k, usdr_key k ->
    k ∈ map Input_id
          (answer UsdrDeviceDescription.getInputs (description w))).
  { intros k Hk. rewrite getInputs_answer, map_app, elem_of_app. right.
    cbn. rewrite !elem_of_cons. unfold usdr_key in Hk. tauto. }
  split.
  { intros Hbase k. rewrite getSoapySettingsMappings_answer, elem_of_dom.
    destruct (usdr_key_dec k) as [Hk | Hk]; [intros _; by apply Hadded |].
    rewrite (lookup_not_usdr_key _ _ Hk), <- elem_of_dom. intros Hin.
    rewrite getInputs_answer, map_app, elem_of_app. left. by apply Hbase. }
  split; [reflexivity |]. split; [reflexivity |].
  intros k Hk. split; [| by apply Hadded].
  rewrite getSoapySettingsMappings_answer, elem_of_dom.
  rewrite (lookup_usdr_key _ _ Hk). by exists k.
Qed.

(** A concrete host for C7: the source that keeps a mapping for antenna,
    with the description that has an antenna field. *)
Lemma mapping_keys_are_field_keys_keeping :
  (forall k, k ∈ dom (mappings (source keeping_world)) ->
             k ∈ map Input_id (inputs (description keeping_world)))
  /\ (forall k,
        k ∈ dom (answer UsdrSource.getSoapySettingsMappings
                   (source keeping_world)) ->
        k ∈ map Input_id
              (answer UsdrDeviceDescription.getInputs
                 (description keeping_world))).
Proof.
  assert (Hbase : forall k, k ∈ dom (mappings (source keeping_world)) ->
                            k ∈ map Input_id
                                  (inputs (description keeping_world))).
  { intros k. cbn. rewrite dom_singleton_L, elem_of_singleton. intros ->.
    rewrite !elem_of_cons. tauto. }
  split; [exact Hbase |].
  apply (mapping_keys_are_field_keys keeping_world), Hbase.
Defined.

(** C8: in every world, for each of the nine queries: asked again right
    after itself it answers the same; asked after any other query it
    answers the same; asked after any sequence of queries it answers what
    it answers at the start.  So the answers to a sequence of queries are
    the answers each gives alone, and two sequences with the same queries
    in different orders get the same answer to every query that follows. *)
Theorem queries_repeat_and_commute (w : World) :
  (forall q, answer (ask q) (after (ask q) w) = answer (ask q) w)
  /\ (forall q' q, answer (ask q) (after (ask q') w) = answer (ask q) w)
  /\ (forall qs q, answer (ask q) (exec qs w) = answer (ask q) w)
  /\ (forall qs, transcript qs w = map (fun q => answer (ask q) w) qs)
  /\ (forall qs qs' q,
        answer (ask q) (exec qs w) = answer (ask q) (exec qs' w)).
Proof.
  split; [intros q; apply answer_after_ask |].
  split; [intros q' q; apply answer_after_ask |].
  split; [intros qs q; apply answer_after_exec |].
  split; [intros qs; apply transcript_alone |].
  intros qs qs' q. by rewrite !answer_after_exec.
Qed.

(** ** What a call leaves behind *)

Lemma dict_update_usdr_settings_fixed (m : gmap string string) :
  dict_update m UsdrSource.usdr_settings = m
  <-> (forall k, usdr_key k -> m !! k = Some k).
Proof.
  split.
  - intros Heq k Hk. rewrite <- Heq. by apply lookup_usdr_key.
  - intros Hm. apply map_eq. intros k.
    destruct (usdr_key_dec k) as [Hk | Hk].
    + by rewrite lookup_usdr_key, Hm.
    + by apply lookup_not_usdr_key.
Qed.

(** X1: [getSoapySettingsMappings] leaves a source that builds a new
    dictionary per call as it was.  On a source that keeps its dictionary
    the call writes into it: afterwards the kept dictionary is the returned
    mapping, with the three entries.  A second call changes nothing more;
    and the call changes nothing at all exactly when the dictionary is not
    kept or has the three entries already. *)
Theorem getSoapySettingsMappings_writes_kept_dictionary
    (s : SoapyConnectorSource.t) :
  (mappings_kept s = false ->
     after UsdrSource.getSoapySettingsMappings s = s)
  /\ (mappings_kept s = true ->
        mappings (after UsdrSource.getSoapySettingsMappings s)
        = answer UsdrSource.getSoapySettingsMappings s
        /\ mappings_kept (after UsdrSource.getSoapySettingsMappings s) = true
        /\ forall k, usdr_key k ->
             mappings (after UsdrSource.getSoapySettingsMappings s) !! k
             = Some k)
  /\ after UsdrSource.getSoapySettingsMappings
       (after UsdrSource.getSoapySettingsMappings s)
     = after UsdrSource.getSoapySettingsMappings s
  /\ (after UsdrSource.getSoapySettingsMappings s = s
      <-> mappings_kept s = false
          \/ forall k, usdr_key k -> mappings s !! k = Some k).
Proof.
  rewrite !getSoapySettingsMappings_after, getSoapySettingsMappings_answer.
  destruct s as [m kept]. destruct kept; cbn [mappings mappings_kept].
  - split; [discriminate |].
    split.
    { intros _. split; [reflexivity |]. split; [reflexivity |].
      intros k Hk. by apply lookup_usdr_key. }
    split.
    { unfold set_mappings. cbn [mappings mappings_kept].
      by rewrite dict_update_usdr_settings_idemp. }
    unfold set_mappings. cbn [mappings mappings_kept]. split.
    + intros Heq. right. apply dict_update_usdr_settings_fixed.
      by injection Heq.
    + intros [Hkept | Hm]; [discriminate |].
      apply dict_update_usdr_settings_fixed in Hm. by rewrite Hm.
  - split; [reflexivity |]. split; [discriminate |].
    split; [reflexivity |]. split; [by left | reflexivity].
Qed.

(** A concrete host for X1: the source that keeps a dictionary. *)
Lemma getSoapySettingsMappings_writes_kept_dictionary_keeping :
  mappings_kept keeping_source = true
  /\ mappings (after UsdrSource.getSoapySettingsMappings keeping_source)
     = answer UsdrSource.getSoapySettingsMappings keeping_source.
Proof.
  split; [reflexivity |].
  apply (getSoapySettingsMappings_writes_kept_dictionary keeping_source).
  reflexivity.
Defined.

(** X2: every query but [getSoapySettingsMappings] leaves both objects
    exactly as they were.  [getSoapySettingsMappings] changes nothing but
    the kept dictionary: the description, and whether the dictionary is
    kept, stay; with a source that does not keep it, nothing changes. *)
Theorem queries_only_read (w : World) (q : Query) :
  (q <> Q_getSoapySettingsMappings -> after (ask q) w = w)
  /\ description (after (ask q) w) = description w
  /\ mappings_kept (source (after (ask q) w)) = mappings_kept (source w)
  /\ (mappings_kept (source w) = false -> after (ask q) w = w).
Proof.
  destruct w as [[m kept] d].
  split; [intros Hq; by destruct q |].
  split; [destruct q; try reflexivity; by destruct kept |].
  split; [destruct q; try reflexivity; by destruct kept |].
  cbn. intros ->. by destruct q.
Qed.

(** A concrete host for X2: asking for the fields of the plain world. *)
Lemma queries_only_read_soapy :
  Q_getInputs <> Q_getSoapySettingsMappings
  /\ after (ask Q_getInputs) soapy_world = soapy_world.
Proof.
  assert (Hq : Q_getInputs <> Q_getSoapySettingsMappings) by discriminate.
  split; [exact Hq |].
  exact (proj1 (queries_only_read soapy_world Q_getInputs) Hq).
Defined.

(** ** Keys and fields agree *)

Lemma usdr_key_elem_of (k : string) :
  k ∈ ["loglevel"; "rx_bw"; "tx_bw"] <-> usdr_key k.
Proof.
  unfold usdr_key. rewrite !elem_of_cons, elem_of_nil. tauto.
Qed.

Lemma usdr_inputs_ids :
  map Input_id UsdrDeviceDescription.usdr_inputs
  = ["loglevel"; "rx_bw"; "tx_bw"].
Proof. reflexivity. Qed.

Lemma getInputs_ids (d : SoapyConnectorDeviceDescription.t) :
  map Input_id (answer UsdrDeviceDescription.getInputs d)
  = map Input_id (inputs d) ++ ["loglevel"; "rx_bw"; "tx_bw"].
Proof. by rewrite getInputs_answer, map_app, usdr_inputs_ids. Qed.

(** X3: when every inherited device-optional key names an inherited field,
    every key of [getDeviceOptionalKeys] names a field of [getInputs]: no
    optional key is left without a field. *)
Theorem device_optional_keys_name_fields
    (d : SoapyConnectorDeviceDescription.t) :
  (forall k, k ∈ device_optional_keys d -> k ∈ map Input_id (inputs d)) ->
  forall k,
    k ∈ answer UsdrDeviceDescription.getDeviceOptionalKeys d ->
    k ∈ map Input_id (answer UsdrDeviceDescription.getInputs d).
Proof.
  intros Hbase k.
  rewrite getDeviceOptionalKeys_answer, getInputs_ids, !elem_of_app.
  intros [Hk | Hk]; [left; by apply Hbase | by right].
Qed.

(** A concrete host for X3. *)
Lemma device_optional_keys_name_fields_soapy :
  (forall k, k ∈ device_optional_keys soapy_description ->
             k ∈ map Input_id (inputs soapy_description))
  /\ (forall k,
        k ∈ answer UsdrDeviceDescription.getDeviceOptionalKeys
              soapy_description ->
        k ∈ map Input_id
              (answer UsdrDeviceDescription.getInputs soapy_description)).
Proof.
  assert (Hbase : forall k, k ∈ device_optional_keys soapy_description ->
                            k ∈ map Input_id (inputs soapy_description))
    by (intros k Hk; exact Hk).
  split; [exact Hbase |].
  exact (device_optional_keys_name_fields soapy_description Hbase).
Defined.

(** X4: when every inherited profile-optional key names an inherited field,
    every key of [getProfileOptionalKeys] names a field of [getInputs]. *)
Theorem profile_optional_keys_name_fields
    (d : SoapyConnectorDeviceDescription.t) :
  (forall k, k ∈ profile_optional_keys d -> k ∈ map Input_id (inputs d)) ->
  forall k,
    k ∈ answer UsdrDeviceDescription.getProfileOptionalKeys d ->
    k ∈ map Input_id (answer UsdrDeviceDescription.getInputs d).
Proof.
  intros Hbase k.
  rewrite getProfileOptionalKeys_answer, getInputs_ids, !elem_of_app.
  intros [Hk | Hk]; [left; by apply Hbase | right].
  revert Hk. rewrite !elem_of_cons, elem_of_nil. tauto.
Qed.

(** A concrete host for X4. *)
Lemma profile_optional_keys_name_fields_soapy :
  (forall k, k ∈ profile_optional_keys soapy_description ->
             k ∈ map Input_id (inputs soapy_description))
  /\ (forall k,
        k ∈ answer UsdrDeviceDescription.getProfileOptionalKeys
              soapy_description ->
        k ∈ map Input_id
              (answer UsdrDeviceDescription.getInputs soapy_description)).
Proof.
  assert (Hbase : forall k, k ∈ profile_optional_keys soapy_description ->
                            k ∈ map Input_id (inputs soapy_description)).
  { intros k. cbn. rewrite !elem_of_cons, elem_of_nil. tauto. }
  split; [exact Hbase |].
  exact (profile_optional_keys_name_fields soapy_description Hbase).
Defined.

(** X5: the keys [getDeviceOptionalKeys] adds after the inherited ones are,
    in the same order, the keys of the fields [getInputs] adds after the
    inherited ones.  So every field the adapter adds is a number field
    that a device may leave out, and the two results grow by the same
    number of entries. *)
Theorem added_fields_are_device_optional
    (d : SoapyConnectorDeviceDescription.t) :
  let fields := answer UsdrDeviceDescription.getInputs d in
  let keys := answer UsdrDeviceDescription.getDeviceOptionalKeys d in
  map Input_id (drop (length (inputs d)) fields)
  = drop (length (device_optional_keys d)) keys
  /\ (forall f, f ∈ drop (length (inputs d)) fields ->
                Input_id f ∈ keys /\ is_NumberInput f = true)
  /\ (length fields - length (inputs d)
      = length keys - length (device_optional_keys d))%nat.
Proof.
  cbv zeta. rewrite getInputs_answer, getDeviceOptionalKeys_answer.
  rewrite !drop_app_length, !length_app.
  split; [reflexivity |].
  split; [| cbn; lia].
  intros f Hf. rewrite elem_of_app, usdr_key_elem_of.
  unfold UsdrDeviceDescription.usdr_inputs in Hf.
  rewrite !elem_of_cons, elem_of_nil in Hf. unfold usdr_key.
  destruct Hf as [-> | [-> | [-> | []]]]; cbn; tauto.
Qed.

(** X6: the adapter keeps profile-optional keys among the device-optional
    ones: when that holds for the inherited lists, it holds for the
    results; what a profile may leave out, a device may leave out. *)
Theorem profile_optional_keys_are_device_optional
    (d : SoapyConnectorDeviceDescription.t) :
  (forall k, k ∈ profile_optional_keys d -> k ∈ device_optional_keys d) ->
  forall k,
    k ∈ answer UsdrDeviceDescription.getProfileOptionalKeys d ->
    k ∈ answer UsdrDeviceDescription.getDeviceOptionalKeys d.
Proof.
  intros Hbase k.
  rewrite getProfileOptionalKeys_answer, getDeviceOptionalKeys_answer.
  rewrite !elem_of_app.
  intros [Hk | Hk]; [left; by apply Hbase | right].
  revert Hk. rewrite !elem_of_cons, elem_of_nil. tauto.
Qed.

(** A concrete host for X6. *)
Lemma profile_optional_keys_are_device_optional_soapy :
  (forall k, k ∈ profile_optional_keys soapy_description ->
             k ∈ device_optional_keys soapy_description)
  /\ (forall k,
        k ∈ answer UsdrDeviceDescription.getProfileOptionalKeys
              soapy_description ->
        k ∈ answer UsdrDeviceDescription.getDeviceOptionalKeys
              soapy_description).
Proof.
  assert (Hbase : forall k, k ∈ profile_optional_keys soapy_description ->
                            k ∈ device_optional_keys soapy_description).
  { intros k. cbn. rewrite !elem_of_cons, elem_of_nil. tauto. }
  split; [exact Hbase |].
  exact (profile_optional_keys_are_device_optional soapy_description Hbase).
Defined.

(** ** Keys stay distinct *)

Lemma NoDup_three_keys : NoDup ["loglevel"; "rx_bw"; "tx_bw"].
Proof.
  repeat (apply NoDup_cons; split;
          [rewrite ?elem_of_cons, elem_of_nil; intuition discriminate |]).
  apply NoDup_nil_2.
Qed.

Lemma NoDup_app_three_keys (l : list string) :
  NoDup (l ++ ["loglevel"; "rx_bw"; "tx_bw"])
  <-> NoDup l /\ forall k, usdr_key k -> k ∉ l.
Proof.
  rewrite NoDup_app. split.
  - intros (Hl & Hdisj & _). split; [exact Hl |].
    intros k Hk Hin. apply (Hdisj k Hin). by apply usdr_key_elem_of.
  - intros (Hl & Hfresh). split; [exact Hl |].
    split; [| exact NoDup_three_keys].
    intros k Hin Hk. apply (Hfresh k); [by apply usdr_key_elem_of | exact Hin].
Qed.

(** X7: the fields of [getInputs] have pairwise different keys exactly when
    the inherited fields have, and none of them is keyed loglevel, rx_bw
    or tx_bw.  An inherited field under one of these keys gives two fields
    with one key. *)
Theorem getInputs_keys_distinct (d : SoapyConnectorDeviceDescription.t) :
  NoDup (map Input_id (answer UsdrDeviceDescription.getInputs d))
  <-> NoDup (map Input_id (inputs d))
      /\ forall k, usdr_key k -> k ∉ map Input_id (inputs d).
Proof. rewrite getInputs_ids. apply NoDup_app_three_keys. Qed.

(** X8: [getDeviceOptionalKeys] returns no key twice exactly when the
    inherited list has no key twice and none of loglevel, rx_bw, tx_bw;
    [getProfileOptionalKeys] returns no key twice exactly when the
    inherited list has no key twice and neither rx_bw nor tx_bw (an
    inherited loglevel does no harm there). *)
Theorem optional_keys_distinct (d : SoapyConnectorDeviceDescription.t) :
  (NoDup (answer UsdrDeviceDescription.getDeviceOptionalKeys d)
   <-> NoDup (device_optional_keys d)
       /\ forall k, usdr_key k -> k ∉ device_optional_keys d)
  /\ (NoDup (answer UsdrDeviceDescription.getProfileOptionalKeys d)
      <-> NoDup (profile_optional_keys d)
          /\ ("rx_bw" ∉ profile_optional_keys d)
          /\ ("tx_bw" ∉ profile_optional_keys d)).
Proof.
  split.
  - rewrite getDeviceOptionalKeys_answer. apply NoDup_app_three_keys.
  - rewrite getProfileOptionalKeys_answer, NoDup_app. split.
    + intros (Hl & Hdisj & _). split; [exact Hl |].
      split; intros Hin; apply (Hdisj _ Hin);
        rewrite !elem_of_cons; tauto.
    + intros (Hl & Hrx & Htx). split; [exact Hl |]. split.
      * intros k Hin. rewrite !elem_of_cons, elem_of_nil.
        intros [-> | [-> | []]]; tauto.
      * repeat (apply NoDup_cons; split;
                [rewrite ?elem_of_cons, elem_of_nil; intuition discriminate |]).
        apply NoDup_nil_2.
Qed.

(** ** Settings forwarded to the driver *)

(** X9: when the inherited mapping sends no two settings to one driver
    name, and sends no setting other than the three to loglevel, rx_bw or
    tx_bw, the mapping of [getSoapySettingsMappings] sends no two settings
    to one driver name either. *)
Theorem getSoapySettingsMappings_injective (s : SoapyConnectorSource.t) :
  dict_injective (mappings s) ->
  (forall k v, ~ usdr_key k -> mappings s !! k = Some v -> ~ usdr_key v) ->
  dict_injective (answer UsdrSource.getSoapySettingsMappings s).
Proof.
  intros Hinj Hval k1 k2 v.
  rewrite getSoapySettingsMappings_answer.
  destruct (usdr_key_dec k1) as [H1 | H1];
    destruct (usdr_key_dec k2) as [H2 | H2].
  - rewrite (lookup_usdr_key _ _ H1), (lookup_usdr_key _ _ H2). congruence.
  - rewrite (lookup_usdr_key _ _ H1), (lookup_not_usdr_key _ _ H2).
    intros [= <-] Hk2. destruct (Hval k2 k1 H2 Hk2 H1).
  - rewrite (lookup_not_usdr_key _ _ H1), (lookup_usdr_key _ _ H2).
    intros Hk1 [= <-]. destruct (Hval k1 k2 H1 Hk1 H2).
  - rewrite (lookup_not_usdr_key _ _ H1), (lookup_not_usdr_key _ _ H2).
    apply Hinj.
Qed.

(** A concrete host for X9: the source that keeps a mapping for antenna. *)
Lemma getSoapySettingsMappings_injective_keeping :
  dict_injective (mappings keeping_source)
  /\ (forall k v, ~ usdr_key k -> mappings keeping_source !! k = Some v ->
                  ~ usdr_key v)
  /\ dict_injective (answer UsdrSource.getSoapySettingsMappings keeping_source).
Proof.
  assert (Hlookup : forall k v, mappings keeping_source !! k = Some v ->
                                k = "antenna" /\ v = "antenna").
  { intros k v. cbn. rewrite lookup_singleton_Some.
    intros [? ?]. subst. split; reflexivity. }
  assert (Hinj : dict_injective (mappings keeping_source)).
  { intros k1 k2 v H1 H2.
    apply Hlookup in H1 as [-> _]. by apply Hlookup in H2 as [-> _]. }
  assert (Hval : forall k v, ~ usdr_key k ->
            mappings keeping_source !! k = Some v -> ~ usdr_key v).
  { intros k v _ Hk. apply Hlookup in Hk as [_ ->].
    unfold usdr_key. intros [H | [H | H]]; discriminate. }
  split; [exact Hinj |]. split; [exact Hval |].
  exact (getSoapySettingsMappings_injective keeping_source Hinj Hval).
Defined.

(** X10: when every setting the inherited mapping forwards is an inherited
    device-optional key, every setting the mapping of
    [getSoapySettingsMappings] forwards is a key of
    [getDeviceOptionalKeys]: a device that leaves the forwarded settings
    out is still configured. *)
Theorem forwarded_settings_are_device_optional (w : World) :
  (forall k, k ∈ dom (mappings (source w)) ->
             k ∈ device_optional_keys (description w)) ->
  forall k,
    k ∈ dom (answer UsdrSource.getSoapySettingsMappings (source w)) ->
    k ∈ answer UsdrDeviceDescription.getDeviceOptionalKeys (description w).
Proof.
  intros Hbase k.
  rewrite getSoapySettingsMappings_answer, getDeviceOptionalKeys_answer.
  rewrite elem_of_dom, elem_of_app, usdr_key_elem_of.
  destruct (usdr_key_dec k) as [Hk | Hk]; [by right |].
  rewrite (lookup_not_usdr_key _ _ Hk), <- elem_of_dom.
  intros Hin. left. by apply Hbase.
Qed.

(** A concrete host for X10. *)
Lemma forwarded_settings_are_device_optional_keeping :
  (forall k, k ∈ dom (mappings (source keeping_world)) ->
             k ∈ device_optional_keys (description keeping_world))
  /\ (forall k,
        k ∈ dom (answer UsdrSource.getSoapySettingsMappings
                   (source keeping_world)) ->
        k ∈ answer UsdrDeviceDescription.getDeviceOptionalKeys
              (description keeping_world)).
Proof.
  assert (Hbase : forall k, k ∈ dom (mappings (source keeping_world)) ->
                            k ∈ device_optional_keys
                                  (description keeping_world)).
  { intros k. cbn. rewrite dom_singleton_L, elem_of_singleton. intros ->.
    rewrite !elem_of_cons. tauto. }
  split; [exact Hbase |].
  exact (forwarded_settings_are_device_optional keeping_world Hbase).
Defined.
